(** * Shallow embedding of [Main.py] of the X news image bot

    The bot loads a JSON history file (article url -> ISO-8601 timestamp),
    prunes entries older than [HISTORY_RETENTION_DAYS], selects the first
    unposted NewsAPI article, asks the xAI endpoints for an image prompt, an
    image and a tweet text, posts to Twitter and finally records the url in
    the history file.  External services are modelled by their observable
    results; the control flow of [Main.py] is modelled statement by
    statement. *)

From Stdlib Require Import ZArith Lia Ascii String.
From stdpp Require Import base gmap strings list.



(** ** Python string order

    Python's [str.__gt__] compares code points lexicographically; a proper
    prefix is smaller. *)

Fixpoint lex (a b : list ascii) : comparison :=
  match a, b with
  | [], [] => Eq
  | [], _ :: _ => Lt
  | _ :: _, [] => Gt
  | x :: a', y :: b' =>
      match Nat.compare (nat_of_ascii x) (nat_of_ascii y) with
      | Eq => lex a' b'
      | c => c
      end
  end.

(** [a > b] on Python strings. *)
Definition py_str_gt (a b : string) : bool :=
  match lex (list_ascii_of_string a) (list_ascii_of_string b) with
  | Gt => true
  | _ => false
  end.

(** ** [datetime] values and [datetime.isoformat()] *)

Record datetime := mkDatetime {
  year : nat; month : nat; day : nat;
  hour : nat; minute : nat; second : nat; microsecond : nat }.

Definition digit (k : nat) : ascii := ascii_of_nat (48 + k).

(** The last [n] decimal digits of [x], zero padded ([%0nd] for [x < 10^n]). *)
Fixpoint pad (n x : nat) : list ascii :=
  match n with
  | 0 => []
  | S n' => pad n' (x / 10) ++ [digit (x mod 10)]
  end.

Definition sep (c : ascii) : list ascii := [c].

(** [YYYY-MM-DDTHH:MM:SS], followed by [.ffffff] only when the
    microsecond field is non-zero (CPython's [datetime.isoformat]). *)
Definition isoformat_chars (t : datetime) : list ascii :=
  pad 4 (year t) ++ sep "-" ++ pad 2 (month t) ++ sep "-" ++ pad 2 (day t)
  ++ sep "T" ++ pad 2 (hour t) ++ sep ":" ++ pad 2 (minute t) ++ sep ":"
  ++ pad 2 (second t)
  ++ (if Nat.eqb (microsecond t) 0 then [] else sep "." ++ pad 6 (microsecond t)).

Definition isoformat (t : datetime) : string :=
  string_of_list_ascii (isoformat_chars t).

(** Chronological order of datetimes: lexicographic on the fields. *)
Definition dt_compare (a b : datetime) : comparison :=
  match Nat.compare (year a) (year b) with
  | Eq =>
  match Nat.compare (month a) (month b) with
  | Eq =>
  match Nat.compare (day a) (day b) with
  | Eq =>
  match Nat.compare (hour a) (hour b) with
  | Eq =>
  match Nat.compare (minute a) (minute b) with
  | Eq =>
  match Nat.compare (second a) (second b) with
  | Eq => Nat.compare (microsecond a) (microsecond b)
  | c => c end
  | c => c end
  | c => c end
  | c => c end
  | c => c end
  | c => c end.

(** The field ranges of a [datetime] object that matter for [isoformat]. *)
Definition bounded (t : datetime) : Prop :=
  year t < 10 ^ 4 /\ month t < 100 /\ day t < 100 /\ hour t < 100
  /\ minute t < 100 /\ second t < 100 /\ microsecond t < 10 ^ 6.

(** ** [datetime - timedelta(days=n)] *)

Definition is_leap (y : nat) : bool :=
  (Nat.eqb (y mod 4) 0 && negb (Nat.eqb (y mod 100) 0)) || Nat.eqb (y mod 400) 0.

Definition days_in_month (y m : nat) : nat :=
  match m with
  | 2 => if is_leap y then 29 else 28
  | 4 | 6 | 9 | 11 => 30
  | _ => 31
  end.

(** One calendar day back; [None] below [MINYEAR = 1] ([OverflowError]). *)
Definition prev_day (t : datetime) : option datetime :=
  if Nat.ltb 1 (day t) then Some {| year := year t; month := month t; day := day t - 1;
    hour := hour t; minute := minute t; second := second t;
    microsecond := microsecond t |}
  else if Nat.ltb 1 (month t) then Some {| year := year t; month := month t - 1;
    day := days_in_month (year t) (month t - 1);
    hour := hour t; minute := minute t; second := second t;
    microsecond := microsecond t |}
  else if Nat.ltb 1 (year t) then Some {| year := year t - 1; month := 12; day := 31;
    hour := hour t; minute := minute t; second := second t;
    microsecond := microsecond t |}
  else None.

Fixpoint sub_days (n : nat) (t : datetime) : option datetime :=
  match n with
  | 0 => Some t
  | S n' => match prev_day t with Some t' => sub_days n' t' | None => None end
  end.

(** ** History store *)

Definition HISTORY_RETENTION_DAYS : nat := 7.

(** [clean_old_entries], with [datetime.now()] passed in as [now]:
    [cutoff = (now - timedelta(days=7)).isoformat()] and the dict
    comprehension keeping [timestamp > cutoff].  [None] is the
    [OverflowError] of the subtraction. *)
Definition clean_old_entries (now : datetime) (history : gmap string string)
    : option (gmap string string) :=
  match sub_days HISTORY_RETENTION_DAYS now with
  | None => None
  | Some c =>
      let cutoff := isoformat c in
      Some (filter (fun '(_, timestamp) => py_str_gt timestamp cutoff = true) history)
  end.

Definition is_article_posted (url : string) (history : gmap string string) : bool :=
  bool_decide (is_Some (history !! url)).

(** [history[url] = datetime.now().isoformat()] *)
Definition mark_article_posted (now : datetime) (url : string)
    (history : gmap string string) : gmap string string :=
  <[url := isoformat now]> history.

(** ** Persisted history file and [load_posted_articles] *)

(** A parsed JSON document: either an object whose values are all strings
    (the format [save_posted_articles] writes), or any other JSON value. *)
Inductive json_doc :=
| DocObject (m : gmap string string)
| DocOther.

(** State of [HISTORY_FILE] on disk, as seen by [exists()], [open] and
    [json.load]. *)
Inductive store_file :=
| StoreAbsent                  (* [HISTORY_FILE.exists()] is false *)
| StoreUnreadable              (* [open] raises *)
| StoreUnparsable              (* [json.load] raises *)
| StoreJson (d : json_doc).    (* [json.load] returns [d] *)

Definition load_posted_articles (f : store_file) : json_doc :=
  match f with
  | StoreAbsent => DocObject empty
  | StoreUnreadable => DocObject empty        (* except Exception: return {} *)
  | StoreUnparsable => DocObject empty        (* except Exception: return {} *)
  | StoreJson d => d
  end.

(** Outcome of the write in [save_posted_articles]. *)
Inductive save_outcome :=
| SaveOk
| SaveOpenFailed     (* [open(HISTORY_FILE, 'w')] raises: file untouched *)
| SaveWriteFailed.   (* the file was truncated, then [json.dump] raised *)

Definition save_posted_articles (history : gmap string string)
    (o : save_outcome) (f : store_file) : store_file :=
  match o with
  | SaveOk => StoreJson (DocObject history)
  | SaveOpenFailed => f
  | SaveWriteFailed => StoreUnparsable
  end.

(** ** Results of calls to external services *)

Inductive call_result (A : Type) :=
| Raised
| Returned (a : A).
Arguments Raised {A}.
Arguments Returned {A} a.

(** Python truthiness of an optional string ([None] and [""] are false). *)
Definition truthy (o : option string) : bool :=
  match o with
  | Some s => negb (String.eqb s ""%string)
  | None => false
  end.

(** [a or b] on optional strings. *)
Definition py_or (a b : option string) : option string :=
  if truthy a then a else b.

(** ** [fetch_daily_news] *)

(** A NewsAPI article: [article.get('title')], [.get('url')],
    [.get('description')]. *)
Record article := mkArticle {
  a_title : option string;
  a_url : option string;
  a_description : option string }.

(** The result of [requests.get(NEWS_API_ENDPOINT, ...)]: a raised
    [RequestException], or a response with its status code and the value of
    [response.json().get('articles', [])]. *)
Inductive news_response :=
| NewsRequestFailed
| NewsResponse (status : Z) (articles : list article).

(** [response.raise_for_status()] raises for 4xx and 5xx codes. *)
Definition http_error_status (status : Z) : bool :=
  (400 <=? status)%Z && (status <? 600)%Z.

Definition news_triple : Type := option string * option string * option string.

Definition no_news : news_triple := (None, None, None).

(** The [for article in articles] loop. *)
Fixpoint find_unposted (history : gmap string string) (articles : list article)
    : news_triple :=
  match articles with
  | [] => no_news                                       (* All articles already posted *)
  | article :: rest =>
      let article_url := a_url article in
      if negb (truthy article_url) then find_unposted history rest   (* continue *)
      else match article_url with
           | Some u =>
               if negb (is_article_posted u history) then
                 let article_description := py_or (a_description article) (a_title article) in
                 let article_title := a_title article in
                 (article_title, article_url, article_description)
               else find_unposted history rest
           | None => find_unposted history rest
           end
  end.

Definition fetch_daily_news (history : gmap string string) (r : news_response)
    : news_triple :=
  match r with
  | NewsRequestFailed => no_news                  (* except RequestException *)
  | NewsResponse status articles =>
      if http_error_status status then no_news    (* raise_for_status *)
      else match articles with
           | [] => no_news                        (* if not articles *)
           | _ => find_unposted history articles
           end
  end.

(** ** Calls to the xAI endpoints *)

Definition IMAGE_MODEL : string := "grok-imagine-image-pro"%string.

(** [generate_dalle_prompt]: the chat completion either raises or returns
    [response.choices[0].message.content] (possibly [None]). *)
Definition generate_dalle_prompt (news_description : string)
    (reply : call_result (option string)) : option string :=
  match reply with
  | Raised => None
  | Returned content => content
  end.

(** The arguments of [client.images.generate(model=..., prompt=..., n=...)]. *)
Record image_request := mkImageRequest {
  ir_model : string;
  ir_prompt : string;
  ir_n : nat }.

(** [generate_ai_image]: returns the requests sent to the image endpoint
    together with the function's result.  [image_api] gives the outcome of
    a request: raised, or [response.data[0].url]. *)
Definition generate_ai_image (image_api : image_request -> call_result (option string))
    (prompt : string) : list image_request * option string :=
  if String.eqb prompt ""%string then ([], None)          (* if not prompt: return None *)
  else
    let req := mkImageRequest IMAGE_MODEL prompt 1 in
    ([req], match image_api req with
            | Raised => None
            | Returned image_url => image_url
            end).

Definition generate_tweet_text (news_description news_url : string)
    (reply : call_result (option string)) : option string :=
  match reply with
  | Raised => None
  | Returned content => content
  end.

(** ** Posting to Twitter *)

Inductive stage :=
| LOAD_HISTORY | PRUNE | SELECT | GEN_DIRECTIVE | RENDER_IMAGE | GEN_CAPTION
| PUBLISH | COMMIT_HISTORY | DONE.

(** Observable events of a run. *)
Inductive event :=
| EvStage (s : stage)          (* the run enters a stage *)
| EvPosted (tweet_id : string) (* a tweet was created on the platform *)
| EvAbort                      (* an [if not ...: return] in [main] *)
| EvCaught.                    (* the top-level [except Exception] in [main] *)

(** [upload_image_to_twitter]: the download ([requests.get] and
    [raise_for_status]) and [api.media_upload]; [None] when either raises. *)
Definition upload_image_to_twitter (image_download : call_result unit)
    (media_upload : call_result string) : option string :=
  match image_download with
  | Raised => None
  | Returned _ =>
      match media_upload with
      | Raised => None
      | Returned media_id_string => Some media_id_string
      end
  end.

(** [post_tweet] returns [None] in Python in every case; its effect is the
    tweet it creates.  [create_tweet] is the outcome of
    [twitter_client.create_tweet(...)] followed by [response.data['id']]. *)
Definition post_tweet (tweet_text image_url : string)
    (image_download : call_result unit) (media_upload : call_result string)
    (create_tweet : call_result string) : list event :=
  let media_id := upload_image_to_twitter image_download media_upload in
  if negb (truthy media_id) then []        (* Aborting tweet posting; return *)
  else match create_tweet with
       | Raised => []                        (* except Exception: log *)
       | Returned tweet_id => [EvPosted tweet_id]
       end.

(** ** [main] *)

(** Everything a run observes from outside. *)
Record world := mkWorld {
  w_store : store_file;
  w_clock : datetime;             (* [datetime.now()] in [clean_old_entries] *)
  w_clock_mark : datetime;        (* [datetime.now()] in [mark_article_posted] *)
  w_news : news_response;
  w_prompt_reply : call_result (option string);
  w_image_api : image_request -> call_result (option string);
  w_caption_reply : call_result (option string);
  w_image_download : call_result unit;
  w_media_upload : call_result string;
  w_create_tweet : call_result string;
  w_save : save_outcome }.

(** [x] when it is truthy: the guard [if not x: return]. *)
Definition as_truthy (o : option string) : option string :=
  if truthy o then o else None.

(** [main]: the history file after the run and the trace of the run. *)
Definition main (w : world) : store_file * list event :=
  let f := w_store w in
  let abort tr := (f, tr ++ [EvAbort]) in
  let tr0 := [EvStage LOAD_HISTORY; EvStage PRUNE] in
  match load_posted_articles f with
  | DocOther => (f, tr0 ++ [EvCaught])           (* [.items()] raises *)
  | DocObject h0 =>
  match clean_old_entries (w_clock w) h0 with
  | None => (f, tr0 ++ [EvCaught])               (* OverflowError *)
  | Some history =>
  let tr1 := tr0 ++ [EvStage SELECT] in
  let '(news_title, news_url, news_description) := fetch_daily_news history (w_news w) in
  match as_truthy news_url, as_truthy news_description with
  | Some u, Some d =>
      let tr2 := tr1 ++ [EvStage GEN_DIRECTIVE] in
      match as_truthy (generate_dalle_prompt d (w_prompt_reply w)) with
      | None => abort tr2
      | Some image_prompt =>
      let tr3 := tr2 ++ [EvStage RENDER_IMAGE] in
      match as_truthy (snd (generate_ai_image (w_image_api w) image_prompt)) with
      | None => abort tr3
      | Some image_url =>
      let tr4 := tr3 ++ [EvStage GEN_CAPTION] in
      match as_truthy (generate_tweet_text d u (w_caption_reply w)) with
      | None => abort tr4
      | Some tweet_text =>
      let tr5 := tr4 ++ [EvStage PUBLISH]
                 ++ post_tweet tweet_text image_url (w_image_download w)
                      (w_media_upload w) (w_create_tweet w) in
      let history' := mark_article_posted (w_clock_mark w) u history in
      (save_posted_articles history' (w_save w) f,
       tr5 ++ [EvStage COMMIT_HISTORY; EvStage DONE])
      end end end
  | _, _ => abort tr1                            (* No unposted articles found *)
  end end end.

(** A run in which every stage succeeds except the media upload of
    [post_tweet]. *)
Definition upload_failure_world : world :=
  mkWorld StoreAbsent (mkDatetime 2026 10 17 9 0 0 0) (mkDatetime 2026 10 17 9 0 5 0)
    (NewsResponse 200 [mkArticle (Some "B"%string) (Some "https://b.com"%string)
                                 (Some "d"%string)])
    (Returned (Some "a robot reading news"%string))
    (fun _ => Returned (Some "https://img.example/1.jpg"%string))
    (Returned (Some "B happened"%string))
    (Returned tt)
    Raised
    (Returned "1"%string)
    SaveOk.

(** The same run with a successful media upload. *)
Definition success_world : world :=
  mkWorld StoreAbsent (mkDatetime 2026 10 17 9 0 0 0) (mkDatetime 2026 10 17 9 0 5 0)
    (NewsResponse 200 [mkArticle (Some "B"%string) (Some "https://b.com"%string)
                                 (Some "d"%string)])
    (Returned (Some "a robot reading news"%string))
    (fun _ => Returned (Some "https://img.example/1.jpg"%string))
    (Returned (Some "B happened"%string))
    (Returned tt)
    (Returned "77"%string)
    (Returned "1"%string)
    SaveOk.

(** ** Start-up check of the environment (module level of [Main.py]) *)

(** The keys of [required_vars], in insertion order; each is read with
    [os.getenv] of the same name. *)
Definition required_vars : list string :=
  ["XAI_API_KEY"; "TWITTER_CONSUMER_KEY"; "TWITTER_CONSUMER_SECRET";
   "TWITTER_ACCESS_TOKEN"; "TWITTER_ACCESS_TOKEN_SECRET"; "NEWS_API_KEY"]%string.

(** [[var_name for var_name, var_value in required_vars.items() if not var_value]] *)
Definition missing_vars (getenv : string -> option string) : list string :=
  List.filter (fun var_name => negb (truthy (getenv var_name))) required_vars.

(** [', '.join(xs)] *)
Fixpoint join (sep_ : string) (xs : list string) : string :=
  match xs with
  | [] => ""
  | [x] => x
  | x :: rest => x ++ sep_ ++ join sep_ rest
  end%string.

Inductive module_load :=
| ModuleLoaded
| ModuleEnvironmentError (message : string).

(** [if missing_vars: raise EnvironmentError(...)] *)
Definition load_module (getenv : string -> option string) : module_load :=
  match missing_vars getenv with
  | [] => ModuleLoaded
  | ms => ModuleEnvironmentError
            ("Missing required environment variables: " ++ join ", " ms)%string
  end.

(** A datetime as one number, most significant field first. *)
Definition dt_key (t : datetime) : nat :=
  ((((((year t * 100 + month t) * 100 + day t) * 100 + hour t) * 100 + minute t)
     * 100 + second t) * (100 * 100 * 100) + microsecond t).

Example iso_example :
  isoformat (mkDatetime 2024 1 5 9 3 7 0) = "2024-01-05T09:03:07"%string.
Proof. reflexivity. Qed.

Example iso_example_us :
  isoformat (mkDatetime 2024 1 5 9 3 7 120) = "2024-01-05T09:03:07.000120"%string.
Proof. reflexivity. Qed.

Example sub_days_example :
  sub_days 7 (mkDatetime 2024 3 3 0 0 0 0) = Some (mkDatetime 2024 2 25 0 0 0 0).
Proof. reflexivity. Qed.

(** ** Python string order on ISO timestamps *)

Lemma lex_refl (a : list ascii) : lex a a = Eq.
Proof. induction a as [|x a IH]; simpl; [done|]. by rewrite Nat.compare_refl. Qed.

Lemma lex_app_eqlen (a1 a2 b1 b2 : list ascii) :
  length a1 = length b1 ->
  lex (a1 ++ a2) (b1 ++ b2) = match lex a1 b1 with Eq => lex a2 b2 | c => c end.
Proof.
  revert b1. induction a1 as [|x a1 IH]; intros [|y b1] Hlen; simpl in *; try lia; [done|].
  destruct (Nat.compare (nat_of_ascii x) (nat_of_ascii y)); auto.
Qed.

Lemma length_pad (n x : nat) : length (pad n x) = n.
Proof.
  revert x. induction n as [|n IH]; intros x; simpl; [done|].
  rewrite length_app, IH. simpl. lia.
Qed.

Lemma nat_of_digit (k : nat) : k < 10 -> nat_of_ascii (digit k) = 48 + k.
Proof. intros Hk. unfold digit. apply nat_ascii_embedding. lia. Qed.

Lemma compare_div_mod (x y : nat) :
  match Nat.compare (x / 10) (y / 10) with
  | Eq => Nat.compare (x mod 10) (y mod 10)
  | c => c
  end = Nat.compare x y.
Proof.
  pose proof (Nat.div_mod_eq x 10). pose proof (Nat.div_mod_eq y 10).
  pose proof (Nat.mod_upper_bound x 10 ltac:(lia)). pose proof (Nat.mod_upper_bound y 10 ltac:(lia)).
  destruct (Nat.compare_spec (x / 10) (y / 10));
  destruct (Nat.compare_spec (x mod 10) (y mod 10));
  destruct (Nat.compare_spec x y); first [reflexivity | lia].
Qed.

Lemma lex_pad (n x y : nat) :
  x < 10 ^ n -> y < 10 ^ n -> lex (pad n x) (pad n y) = Nat.compare x y.
Proof.
  revert x y. induction n as [|n IH]; intros x y Hx Hy.
  - simpl in *. assert (x = 0) as -> by lia. assert (y = 0) as -> by lia. done.
  - cbn [pad]. rewrite lex_app_eqlen by (rewrite !length_pad; done).
    rewrite Nat.pow_succ_r' in Hx, Hy.
    rewrite IH by (apply Nat.Div0.div_lt_upper_bound; lia).
    cbn [lex]. rewrite !nat_of_digit by (apply Nat.mod_upper_bound; lia).
    rewrite <- (compare_div_mod x y).
    destruct (Nat.compare (x / 10) (y / 10)); try done.
    destruct (Nat.compare_spec (x mod 10) (y mod 10));
    destruct (Nat.compare_spec (48 + x mod 10) (48 + y mod 10)); first [reflexivity | lia].
Qed.

Lemma lex_pad_app (n x y : nat) (r1 r2 : list ascii) :
  x < 10 ^ n -> y < 10 ^ n ->
  lex (pad n x ++ r1) (pad n y ++ r2)
  = match Nat.compare x y with Eq => lex r1 r2 | c => c end.
Proof.
  intros Hx Hy. rewrite lex_app_eqlen by (rewrite !length_pad; done).
  by rewrite lex_pad.
Qed.

Lemma lex_sep (c : ascii) (r1 r2 : list ascii) :
  lex (sep c ++ r1) (sep c ++ r2) = lex r1 r2.
Proof. simpl. by rewrite Nat.compare_refl. Qed.

Lemma lex_fraction (u1 u2 : nat) :
  u1 < 10 ^ 6 -> u2 < 10 ^ 6 ->
  lex (if Nat.eqb u1 0 then [] else sep "." ++ pad 6 u1)
      (if Nat.eqb u2 0 then [] else sep "." ++ pad 6 u2)
  = Nat.compare u1 u2.
Proof.
  intros H1 H2.
  destruct (Nat.eqb_spec u1 0) as [->|Hn1]; destruct (Nat.eqb_spec u2 0) as [->|Hn2].
  - done.
  - simpl. destruct u2; [lia|done].
  - simpl. destruct u1; [lia|done].
  - rewrite lex_sep. by apply lex_pad.
Qed.

(** On the timestamps the program writes, Python's string order is the
    chronological order. *)
Lemma lex_isoformat (a b : datetime) :
  bounded a -> bounded b ->
  lex (isoformat_chars a) (isoformat_chars b) = dt_compare a b.
Proof.
  intros (Ha1 & Ha2 & Ha3 & Ha4 & Ha5 & Ha6 & Ha7) (Hb1 & Hb2 & Hb3 & Hb4 & Hb5 & Hb6 & Hb7).
  unfold isoformat_chars, dt_compare.
  rewrite lex_pad_app by done.
  destruct (Nat.compare (year a) (year b)); try done. rewrite lex_sep.
  rewrite lex_pad_app by done.
  destruct (Nat.compare (month a) (month b)); try done. rewrite lex_sep.
  rewrite lex_pad_app by done.
  destruct (Nat.compare (day a) (day b)); try done. rewrite lex_sep.
  rewrite lex_pad_app by done.
  destruct (Nat.compare (hour a) (hour b)); try done. rewrite lex_sep.
  rewrite lex_pad_app by done.
  destruct (Nat.compare (minute a) (minute b)); try done. rewrite lex_sep.
  rewrite lex_pad_app by done.
  destruct (Nat.compare (second a) (second b)); try done.
  by apply lex_fraction.
Qed.

Lemma py_str_gt_isoformat (a b : datetime) :
  bounded a -> bounded b ->
  py_str_gt (isoformat a) (isoformat b) = true <-> dt_compare a b = Gt.
Proof.
  intros Ha Hb. unfold py_str_gt, isoformat.
  rewrite !list_ascii_of_string_of_list_ascii, lex_isoformat by done.
  destruct (dt_compare a b); split; congruence.
Qed.

Lemma days_in_month_le (y m : nat) : days_in_month y m <= 31.
Proof.
  unfold days_in_month.
  destruct m as [|[|[|[|[|[|[|[|[|[|[|[|m]]]]]]]]]]]]; try destruct (is_leap y); lia.
Qed.

Lemma prev_day_bounded (t t' : datetime) :
  bounded t -> prev_day t = Some t' -> bounded t'.
Proof.
  unfold prev_day, bounded. intros Hb Hp.
  pose proof (days_in_month_le (year t) (month t - 1)).
  destruct (Nat.ltb 1 (day t)); [injection Hp as <-; cbn [year month day hour minute second microsecond]; lia|].
  destruct (Nat.ltb 1 (month t)); [injection Hp as <-; cbn [year month day hour minute second microsecond]; lia|].
  destruct (Nat.ltb 1 (year t)); [injection Hp as <-; cbn [year month day hour minute second microsecond]; lia|done].
Qed.

Lemma sub_days_bounded (n : nat) (t c : datetime) :
  bounded t -> sub_days n t = Some c -> bounded c.
Proof.
  revert t. induction n as [|n IH]; intros t Hb Hs; simpl in Hs.
  - by injection Hs as <-.
  - destruct (prev_day t) as [t'|] eqn:Hp; [|done].
    eapply IH; [eapply prev_day_bounded|]; eauto.
Qed.

(** ** Pruning the history *)

(** C5: [clean_old_entries] is a function of the mapping and of the clock
    reading only, and keeps exactly the entries whose timestamp string is
    greater than the ISO string of [now - 7 days]; for timestamps in the
    format the program writes, that string comparison is the chronological
    order.  ([None] is the [OverflowError] of [now - timedelta(days=7)] in
    the first week of year 1.) *)
Theorem clean_old_entries_exact (now : datetime) (M : gmap string string) :
  bounded now ->
  match clean_old_entries now M with
  | Some M' =>
      exists c, sub_days HISTORY_RETENTION_DAYS now = Some c /\
      (forall k v, M' !! k = Some v <-> M !! k = Some v /\ py_str_gt v (isoformat c) = true) /\
      (forall t, bounded t -> py_str_gt (isoformat t) (isoformat c) = true <-> dt_compare t c = Gt)
  | None => sub_days HISTORY_RETENTION_DAYS now = None
  end.
Proof.
  intros Hnow. unfold clean_old_entries.
  destruct (sub_days HISTORY_RETENTION_DAYS now) as [c|] eqn:Hc; [|done].
  exists c. split; [done|]. split.
  - intros k v. rewrite map_lookup_filter_Some. done.
  - intros t Ht. apply py_str_gt_isoformat; [done|].
    exact (sub_days_bounded _ now c Hnow Hc).
Qed.

Lemma bounded_dec (t : datetime) :
  (year t <? 10 ^ 4) && (month t <? 100) && (day t <? 100) && (hour t <? 100)
  && (minute t <? 100) && (second t <? 100) && (microsecond t <? 10 ^ 6) = true ->
  bounded t.
Proof.
  intros H. repeat (apply andb_prop in H as [H ?Hf]). apply Nat.ltb_lt in H.
  unfold bounded. repeat match goal with Hf : (_ <? _) = true |- _ => apply Nat.ltb_lt in Hf end.
  repeat split; assumption.
Qed.

Lemma clean_old_entries_exact_witness :
  bounded (mkDatetime 2024 3 3 12 0 0 0) /\
  exists c, sub_days HISTORY_RETENTION_DAYS (mkDatetime 2024 3 3 12 0 0 0) = Some c /\
  (forall k v,
     ({[ "https://b.com" := "2024-03-01T08:00:00" ]} : gmap string string) !! k = Some v <->
     ({[ "https://a.com" := "2024-02-20T08:00:00"; "https://b.com" := "2024-03-01T08:00:00" ]}
        : gmap string string) !! k = Some v
     /\ py_str_gt v (isoformat c) = true) /\
  (forall t, bounded t -> py_str_gt (isoformat t) (isoformat c) = true <-> dt_compare t c = Gt).
Proof.
  split; [apply bounded_dec; vm_compute; reflexivity|].
  pose proof (clean_old_entries_exact (mkDatetime 2024 3 3 12 0 0 0)
    {[ "https://a.com" := "2024-02-20T08:00:00"; "https://b.com" := "2024-03-01T08:00:00" ]}
    ltac:(apply bounded_dec; vm_compute; reflexivity)) as H.
  assert (E : clean_old_entries (mkDatetime 2024 3 3 12 0 0 0)
    {[ "https://a.com" := "2024-02-20T08:00:00"; "https://b.com" := "2024-03-01T08:00:00" ]}
    = Some {[ "https://b.com" := "2024-03-01T08:00:00" ]}) by (vm_compute; reflexivity).
  rewrite E in H. exact H.
Defined.

(** C4: with a fixed clock reading, pruning twice is pruning once. *)
Theorem clean_old_entries_idempotent (now : datetime) (M : gmap string string) :
  (clean_old_entries now M ≫= clean_old_entries now) = clean_old_entries now M.
Proof.
  unfold clean_old_entries.
  destruct (sub_days HISTORY_RETENTION_DAYS now) as [c|]; simpl; [|done].
  f_equal. apply map_filter_filter_l. intros k v _ Hp. exact Hp.
Qed.

(** C9: pruning only removes entries: every entry of the result is an entry
    of the input, with the same timestamp string. *)
Theorem clean_old_entries_submap (now : datetime) (M M' : gmap string string) :
  clean_old_entries now M = Some M' ->
  M' ⊆ M /\ (forall k v, M' !! k = Some v -> M !! k = Some v).
Proof.
  unfold clean_old_entries. intros H.
  destruct (sub_days HISTORY_RETENTION_DAYS now) as [c|]; [|done].
  injection H as <-. split.
  - apply map_filter_subseteq.
  - intros k v Hk. by apply map_lookup_filter_Some in Hk as [? _].
Qed.

Lemma clean_old_entries_submap_witness :
  ({[ "https://b.com" := "2024-03-01T08:00:00" ]} : gmap string string)
    ⊆ {[ "https://a.com" := "2024-02-20T08:00:00"; "https://b.com" := "2024-03-01T08:00:00" ]}.
Proof.
  apply (clean_old_entries_submap (mkDatetime 2024 3 3 12 0 0 0)
    {[ "https://a.com" := "2024-02-20T08:00:00"; "https://b.com" := "2024-03-01T08:00:00" ]}).
  vm_compute. reflexivity.
Defined.

(** ** Loading the history *)

(** C6: [load_posted_articles] always returns (it raises in no case): the
    parsed document when the file exists and parses, and [{}] when the file
    is absent, cannot be opened or read, or does not parse. *)
Theorem load_posted_articles_never_fails (f : store_file) :
  (exists d, f = StoreJson d /\ load_posted_articles f = d) \/
  ((f = StoreAbsent \/ f = StoreUnreadable \/ f = StoreUnparsable)
   /\ load_posted_articles f = DocObject empty).
Proof. destruct f as [| | |d]; simpl; eauto. Qed.

(** ** Selecting the article *)

(** An article the loop skips: its url is missing, empty, or already in the
    history. *)
Definition skipped (history : gmap string string) (b : article) : Prop :=
  forall u, a_url b = Some u -> u <> ""%string -> is_Some (history !! u).

Lemma truthy_Some (u : string) : truthy (Some u) = true <-> u <> ""%string.
Proof.
  unfold truthy. destruct (String.eqb_spec u ""); simpl; split; congruence.
Qed.

Lemma find_unposted_spec (history : gmap string string) (l : list article) :
  match find_unposted history l with
  | (t, Some u, d) =>
      exists pre a post, l = pre ++ a :: post /\ Forall (skipped history) pre /\
      a_url a = Some u /\ u <> ""%string /\ history !! u = None /\
      t = a_title a /\ d = py_or (a_description a) (a_title a)
  | (t, None, d) => t = None /\ d = None /\ Forall (skipped history) l
  end.
Proof.
  induction l as [|a rest IH]; simpl; [done|].
  destruct (a_url a) as [u|] eqn:Hu.
  - destruct (String.eqb_spec u "") as [->|Hne].
    + simpl. destruct (find_unposted history rest) as [[t [u'|]] d].
      * destruct IH as (pre & a' & post & -> & Hpre & IH).
        exists (a :: pre), a', post. split; [done|]. split; [|done].
        constructor; [|done]. intros u'' Hu'' Hne. congruence.
      * destruct IH as (-> & -> & IH). split; [done|]. split; [done|].
        constructor; [|done]. intros u'' Hu'' Hne. congruence.
    + assert (truthy (Some u) = true) as -> by (by apply truthy_Some). simpl.
      unfold is_article_posted. destruct (history !! u) as [ts|] eqn:Hh; simpl.
      * destruct (find_unposted history rest) as [[t [u'|]] d].
        -- destruct IH as (pre & a' & post & -> & Hpre & IH).
           exists (a :: pre), a', post. split; [done|]. split; [|done].
           constructor; [|done]. intros u'' Hu'' _. rewrite Hu'' in Hu.
           injection Hu as ->. by rewrite Hh.
        -- destruct IH as (-> & -> & IH). split; [done|]. split; [done|].
           constructor; [|done]. intros u'' Hu'' _. rewrite Hu'' in Hu.
           injection Hu as ->. by rewrite Hh.
      * exists [], a, rest. rewrite Hu. repeat split; try done.
  - simpl. destruct (find_unposted history rest) as [[t [u'|]] d].
    + destruct IH as (pre & a' & post & -> & Hpre & IH).
      exists (a :: pre), a', post. split; [done|]. split; [|done].
      constructor; [|done]. intros u'' Hu'' _. congruence.
    + destruct IH as (-> & -> & IH). split; [done|]. split; [done|].
      constructor; [|done]. intros u'' Hu'' _. congruence.
Qed.

(** C3: on a list the provider returned, [fetch_daily_news] returns the
    first article, in list order, whose url is non-empty and not a key of
    the history (skipping those with a missing or empty url); so the url it
    returns is never a key of the history.  When there is no such article
    it returns [(None, None, None)]. *)
Theorem fetch_daily_news_first_unposted (history : gmap string string)
    (status : Z) (l : list article) :
  http_error_status status = false ->
  match fetch_daily_news history (NewsResponse status l) with
  | (t, Some u, d) =>
      exists pre a post, l = pre ++ a :: post /\ Forall (skipped history) pre /\
      a_url a = Some u /\ u <> ""%string /\ history !! u = None /\
      t = a_title a /\ d = py_or (a_description a) (a_title a)
  | (t, None, d) => t = None /\ d = None /\ Forall (skipped history) l
  end.
Proof.
  intros Hst. simpl. rewrite Hst.
  destruct l as [|a rest]; [done|]. apply find_unposted_spec.
Qed.

Lemma fetch_daily_news_first_unposted_witness :
  fetch_daily_news {[ "https://a.com" := "2024-01-01T00:00:00" ]}
    (NewsResponse 200 [mkArticle None (Some "https://a.com") None;
                       mkArticle (Some "B") (Some "https://b.com") (Some "d")])
  = (Some "B", Some "https://b.com", Some "d")%string /\
  exists pre a post,
    [mkArticle None (Some "https://a.com") None;
     mkArticle (Some "B") (Some "https://b.com") (Some "d")] = pre ++ a :: post /\
    Forall (skipped {[ "https://a.com" := "2024-01-01T00:00:00" ]}) pre /\
    a_url a = Some "https://b.com"%string /\ "https://b.com"%string <> ""%string /\
    ({[ "https://a.com" := "2024-01-01T00:00:00" ]} : gmap string string)
      !! "https://b.com"%string = None /\
    Some "B"%string = a_title a /\ Some "d"%string = py_or (a_description a) (a_title a).
Proof.
  assert (E : fetch_daily_news {[ "https://a.com" := "2024-01-01T00:00:00" ]}
    (NewsResponse 200 [mkArticle None (Some "https://a.com") None;
                       mkArticle (Some "B") (Some "https://b.com") (Some "d")])
    = (Some "B", Some "https://b.com", Some "d")%string) by (vm_compute; reflexivity).
  split; [exact E|].
  pose proof (fetch_daily_news_first_unposted {[ "https://a.com" := "2024-01-01T00:00:00" ]} 200
    [mkArticle None (Some "https://a.com") None;
     mkArticle (Some "B") (Some "https://b.com") (Some "d")]
    ltac:(reflexivity)) as H.
  rewrite E in H. exact H.
Defined.

(** C7: [fetch_daily_news] returns [(None, None, None)] exactly when the
    request raised, the status is an HTTP error, the article list is empty,
    or every article is skipped (no url, empty url, or url already in the
    history).  The model's result type has no exception: it never raises. *)
Theorem fetch_daily_news_no_candidate (history : gmap string string) (r : news_response) :
  fetch_daily_news history r = no_news <->
  r = NewsRequestFailed \/
  (exists status l, r = NewsResponse status l /\ http_error_status status = true) \/
  (exists status l, r = NewsResponse status l /\ http_error_status status = false /\
     (l = [] \/ Forall (skipped history) l)).
Proof.
  destruct r as [|status l]; simpl.
  - split; [by left|done].
  - destruct (http_error_status status) eqn:Hst.
    + split; [|done]. intros _. right; left. eauto.
    + split.
      * intros H. right; right. exists status, l. split; [done|]. split; [done|].
        destruct l as [|a rest]; [by left|right].
        pose proof (find_unposted_spec history (a :: rest)) as Hs.
        rewrite H in Hs. simpl in Hs. by destruct Hs as (_ & _ & Hs).
      * intros [Hr|[(st & l' & Hr & Hh)|(st & l' & Hr & Hh & Hl)]]; try done.
        -- injection Hr as <- <-. congruence.
        -- injection Hr as <- <-. destruct l as [|a rest]; [done|].
           destruct Hl as [Hl|Hl]; [done|].
           pose proof (find_unposted_spec history (a :: rest)) as Hs.
           destruct (find_unposted history (a :: rest)) as [[t [u|]] d].
           ++ destruct Hs as (pre & a' & post & Heq & _ & Hu & Hne & Hh' & _).
              rewrite Heq in Hl. apply Forall_app in Hl as [_ Hl].
              inversion Hl as [|? ? Ha _]; subst.
              destruct (Ha u Hu Hne) as [? Hx]. congruence.
           ++ by destruct Hs as (-> & -> & _).
Qed.

(** ** Rendering the image *)

(** C8: for the empty prompt [generate_ai_image] sends no request and
    returns [None]; otherwise it sends exactly one request, for one image
    ([n=1]) with that prompt, and returns the url of the response, or [None]
    when the call raises. *)
Theorem generate_ai_image_contract
    (image_api : image_request -> call_result (option string)) (prompt : string) :
  let '(calls, result) := generate_ai_image image_api prompt in
  (prompt = ""%string /\ calls = [] /\ result = None) \/
  (prompt <> ""%string /\ exists req, calls = [req] /\ ir_n req = 1 /\
     ir_prompt req = prompt /\ ir_model req = IMAGE_MODEL /\
     result = match image_api req with Raised => None | Returned image_url => image_url end).
Proof.
  unfold generate_ai_image. destruct (String.eqb_spec prompt "") as [->|Hne].
  - by left.
  - right. split; [done|]. eexists. repeat split.
Qed.

(** ** Runs of [main] *)

Lemma find_unposted_skip (history : gmap string string) (pre rest : list article) :
  Forall (skipped history) pre ->
  find_unposted history (pre ++ rest) = find_unposted history rest.
Proof.
  induction 1 as [|b pre Hb _ IH]; simpl; [done|].
  destruct (a_url b) as [u|] eqn:Hu; simpl; [|done].
  destruct (String.eqb_spec u "") as [->|Hne]; simpl; [done|].
  unfold is_article_posted. rewrite bool_decide_eq_true_2 by (by apply Hb). done.
Qed.

Lemma find_unposted_hit (history : gmap string string) (a : article)
    (post : list article) (u : string) :
  a_url a = Some u -> u <> ""%string -> history !! u = None ->
  find_unposted history (a :: post)
  = (a_title a, Some u, py_or (a_description a) (a_title a)).
Proof.
  intros Hu Hne Hh. simpl. rewrite Hu.
  assert (truthy (Some u) = true) as -> by (by apply truthy_Some). simpl.
  unfold is_article_posted. rewrite Hh. done.
Qed.

Lemma as_truthy_false (o : option string) : truthy o = false -> as_truthy o = None.
Proof. unfold as_truthy. by intros ->. Qed.

Lemma as_truthy_true (o : option string) : truthy o = true -> as_truthy o = o.
Proof. unfold as_truthy. by intros ->. Qed.

(** C10: when the first article with a fresh non-empty url has neither a
    description nor a title, [fetch_daily_news] still returns it, with a
    falsy summary (no later article is tried), and [main] then stops at
    [if not news_url or not news_description: return]: the history file is
    left as it was and [COMMIT_HISTORY] is not reached. *)
Theorem main_first_article_without_text (w : world) (h0 h : gmap string string)
    (status : Z) (pre post : list article) (a : article) (u : string) :
  load_posted_articles (w_store w) = DocObject h0 ->
  clean_old_entries (w_clock w) h0 = Some h ->
  w_news w = NewsResponse status (pre ++ a :: post) ->
  http_error_status status = false ->
  Forall (skipped h) pre ->
  a_url a = Some u -> u <> ""%string -> h !! u = None ->
  truthy (a_description a) = false -> truthy (a_title a) = false ->
  fetch_daily_news h (w_news w) = (a_title a, Some u, a_title a) /\
  fst (main w) = w_store w /\ ~ In (EvStage COMMIT_HISTORY) (snd (main w)).
Proof.
  intros Hload Hclean Hnews Hst Hpre Hu Hne Hh Hd Ht.
  assert (Hf : fetch_daily_news h (w_news w) = (a_title a, Some u, a_title a)).
  { rewrite Hnews. simpl. rewrite Hst.
    destruct (pre ++ a :: post) as [|x xs] eqn:E; [by destruct pre|].
    rewrite <- E, find_unposted_skip by done.
    rewrite (find_unposted_hit h a post u) by done.
    unfold py_or. by rewrite Hd. }
  split; [done|].
  unfold main. rewrite Hload, Hclean, Hf.
  rewrite (as_truthy_true (Some u)) by (by apply truthy_Some).
  rewrite (as_truthy_false (a_title a)) by done.
  simpl. split; [done|]. intros [H|[H|[H|[H|[]]]]]; discriminate.
Qed.

Lemma main_first_article_without_text_witness :
  fetch_daily_news empty
    (NewsResponse 200 [mkArticle None (Some "https://a.com") None;
                       mkArticle (Some "B") (Some "https://b.com") (Some "d")])
  = (None, Some "https://a.com"%string, None) /\
  fst (main (mkWorld StoreAbsent (mkDatetime 2026 10 17 9 0 0 0)
      (mkDatetime 2026 10 17 9 0 5 0)
      (NewsResponse 200 [mkArticle None (Some "https://a.com") None;
                         mkArticle (Some "B") (Some "https://b.com") (Some "d")])
      (Returned (Some "prompt"%string)) (fun _ => Returned (Some "https://img"%string))
      (Returned (Some "text"%string)) (Returned tt) (Returned "7"%string)
      (Returned "9"%string) SaveOk)) = StoreAbsent /\
  ~ In (EvStage COMMIT_HISTORY)
    (snd (main (mkWorld StoreAbsent (mkDatetime 2026 10 17 9 0 0 0)
      (mkDatetime 2026 10 17 9 0 5 0)
      (NewsResponse 200 [mkArticle None (Some "https://a.com") None;
                         mkArticle (Some "B") (Some "https://b.com") (Some "d")])
      (Returned (Some "prompt"%string)) (fun _ => Returned (Some "https://img"%string))
      (Returned (Some "text"%string)) (Returned tt) (Returned "7"%string)
      (Returned "9"%string) SaveOk))).
Proof.
  apply (main_first_article_without_text
    (mkWorld StoreAbsent (mkDatetime 2026 10 17 9 0 0 0)
      (mkDatetime 2026 10 17 9 0 5 0)
      (NewsResponse 200 [mkArticle None (Some "https://a.com") None;
                         mkArticle (Some "B") (Some "https://b.com") (Some "d")])
      (Returned (Some "prompt"%string)) (fun _ => Returned (Some "https://img"%string))
      (Returned (Some "text"%string)) (Returned tt) (Returned "7"%string)
      (Returned "9"%string) SaveOk)
    empty empty 200 [] [mkArticle (Some "B") (Some "https://b.com") (Some "d")]
    (mkArticle None (Some "https://a.com") None) "https://a.com"%string).
  all: first [reflexivity | constructor | discriminate | vm_compute; reflexivity].
Defined.

(** [main] reaches [COMMIT_HISTORY] exactly when it reaches [PUBLISH]:
    what [post_tweet] did is not looked at. *)
Lemma main_commit_iff_publish (w : world) :
  In (EvStage COMMIT_HISTORY) (snd (main w)) <-> In (EvStage PUBLISH) (snd (main w)).
Proof.
  unfold main. repeat case_match; simpl; rewrite ?in_app_iff; simpl;
  split; intros; intuition discriminate.
Qed.

(** A created tweet is always followed by the commit. *)
Lemma main_posted_implies_commit (w : world) (tweet_id : string) :
  In (EvPosted tweet_id) (snd (main w)) -> In (EvStage COMMIT_HISTORY) (snd (main w)).
Proof.
  unfold main. repeat case_match; simpl; rewrite ?in_app_iff; simpl;
  intuition discriminate.
Qed.

(** The history file is written only by the commit: every run that stops
    before [COMMIT_HISTORY] (in particular at the prompt, image or tweet
    text stage) leaves it as it was. *)
Lemma main_store_frame (w : world) :
  ~ In (EvStage COMMIT_HISTORY) (snd (main w)) -> fst (main w) = w_store w.
Proof.
  unfold main. repeat case_match; simpl; rewrite ?in_app_iff; simpl;
  intuition (try discriminate).
Qed.

(** C1 (defect): in [upload_failure_world] the media upload fails, so
    [post_tweet] creates no tweet, yet [main] goes on to mark and save the
    article: [COMMIT_HISTORY] is reached without a post identifier. *)
Theorem main_commits_after_failed_upload :
  In (EvStage COMMIT_HISTORY) (snd (main upload_failure_world)) /\
  (forall tweet_id, ~ In (EvPosted tweet_id) (snd (main upload_failure_world))).
Proof.
  vm_compute. split.
  - repeat first [left; reflexivity | right].
  - intros tweet_id H. repeat destruct H as [H|H]; try discriminate. exact H.
Qed.

(** C2 (defect): in the same run the publish stage yields no tweet, and the
    history file, absent before the run, holds the article afterwards. *)
Theorem main_failed_publish_changes_store :
  fst (main upload_failure_world)
  = StoreJson (DocObject {[ "https://b.com" := "2026-10-17T09:00:05" ]}) /\
  fst (main upload_failure_world) <> w_store upload_failure_world /\
  ~ (exists tweet_id, In (EvPosted tweet_id) (snd (main upload_failure_world))).
Proof.
  split; [vm_compute; reflexivity|]. split; [vm_compute; discriminate|].
  intros [tweet_id H]. vm_compute in H.
  repeat destruct H as [H|H]; try discriminate. exact H.
Qed.

(** ** Further properties of the history store *)

Lemma pow6 : 10 ^ 6 = 100 * 100 * 100.
Proof. rewrite !Nat.pow_succ_r', Nat.pow_0_r. lia. Qed.

Lemma compare_mul_add (x y r s B : nat) :
  r < B -> s < B ->
  Nat.compare (x * B + r) (y * B + s)
  = match Nat.compare x y with Eq => Nat.compare r s | c => c end.
Proof.
  intros Hr Hs. destruct (Nat.compare_spec x y) as [->|H|H].
  - destruct (Nat.compare_spec r s); destruct (Nat.compare_spec (y * B + r) (y * B + s));
    first [reflexivity | lia].
  - apply Nat.compare_lt_iff. nia.
  - apply Nat.compare_gt_iff. nia.
Qed.

Lemma dt_compare_key (a b : datetime) :
  bounded a -> bounded b -> dt_compare a b = Nat.compare (dt_key a) (dt_key b).
Proof.
  intros (Ha1 & Ha2 & Ha3 & Ha4 & Ha5 & Ha6 & Ha7) (Hb1 & Hb2 & Hb3 & Hb4 & Hb5 & Hb6 & Hb7).
  rewrite pow6 in Ha7, Hb7. unfold dt_key. rewrite !compare_mul_add by lia.
  unfold dt_compare.
  destruct (Nat.compare (year a) (year b)), (Nat.compare (month a) (month b)),
    (Nat.compare (day a) (day b)), (Nat.compare (hour a) (hour b)),
    (Nat.compare (minute a) (minute b)), (Nat.compare (second a) (second b));
    reflexivity.
Qed.

Lemma prev_day_key_lt (t t' : datetime) :
  prev_day t = Some t' -> dt_key t' < dt_key t.
Proof.
  unfold prev_day, dt_key. intros Hp.
  pose proof (days_in_month_le (year t) (month t - 1)).
  destruct (Nat.ltb 1 (day t)) eqn:Hd.
  { apply Nat.ltb_lt in Hd. injection Hp as <-.
    cbn [year month day hour minute second microsecond]. lia. }
  destruct (Nat.ltb 1 (month t)) eqn:Hm.
  { apply Nat.ltb_lt in Hm. injection Hp as <-.
    cbn [year month day hour minute second microsecond]. lia. }
  destruct (Nat.ltb 1 (year t)) eqn:Hy; [|done].
  apply Nat.ltb_lt in Hy. injection Hp as <-.
  cbn [year month day hour minute second microsecond]. lia.
Qed.

Lemma sub_days_key_lt (n : nat) (t c : datetime) :
  sub_days (S n) t = Some c -> dt_key c < dt_key t.
Proof.
  revert t. induction n as [|n IH]; intros t Hs; simpl in Hs;
  destruct (prev_day t) as [t'|] eqn:Hp; try done.
  - injection Hs as <-. by apply prev_day_key_lt.
  - pose proof (prev_day_key_lt t t' Hp).
    assert (dt_key c < dt_key t') by (apply IH; exact Hs). lia.
Qed.

(** An entry recorded at the current time survives pruning at that time:
    the cutoff [now - 7 days] is strictly earlier than [now]. *)
Theorem clean_old_entries_keeps_fresh_mark (now : datetime) (u : string)
    (h h' : gmap string string) :
  bounded now ->
  clean_old_entries now (mark_article_posted now u h) = Some h' ->
  h' !! u = Some (isoformat now).
Proof.
  intros Hb. unfold clean_old_entries, mark_article_posted.
  destruct (sub_days HISTORY_RETENTION_DAYS now) as [c|] eqn:Hc; [|done].
  intros Hs. injection Hs as <-. apply map_lookup_filter_Some.
  split; [apply lookup_insert_eq|]. simpl.
  assert (Hbc : bounded c) by exact (sub_days_bounded _ now c Hb Hc).
  apply py_str_gt_isoformat; [done|done|].
  rewrite dt_compare_key by done. apply Nat.compare_gt_iff.
  exact (sub_days_key_lt 6 now c Hc).
Qed.

Lemma clean_old_entries_keeps_fresh_mark_witness :
  ({[ "https://b.com" := "2026-10-17T09:00:00" ]} : gmap string string)
    !! "https://b.com"%string = Some (isoformat (mkDatetime 2026 10 17 9 0 0 0)).
Proof.
  apply (clean_old_entries_keeps_fresh_mark (mkDatetime 2026 10 17 9 0 0 0)
    "https://b.com" {[ "https://a.com" := "2026-10-01T00:00:00" ]}).
  - apply bounded_dec. vm_compute. reflexivity.
  - vm_compute. reflexivity.
Defined.

Lemma fetch_daily_news_fresh (history : gmap string string) (r : news_response)
    (t d : option string) (u : string) :
  fetch_daily_news history r = (t, Some u, d) -> history !! u = None /\ u <> ""%string.
Proof.
  destruct r as [|status l]; simpl; [done|].
  destruct (http_error_status status); [done|].
  destruct l as [|a rest]; [done|]. intros Hf.
  pose proof (find_unposted_spec history (a :: rest)) as Hs. rewrite Hf in Hs.
  destruct Hs as (_ & _ & _ & _ & _ & _ & Hne & Hh & _). done.
Qed.

(** An article recorded after the cutoff of the current run stays in the
    pruned history, so this run's [fetch_daily_news] cannot select it again,
    whatever NewsAPI returns. *)
Theorem recent_entry_not_reselected (now t c : datetime) (m : gmap string string)
    (u : string) :
  bounded now -> bounded t ->
  m !! u = Some (isoformat t) ->
  sub_days HISTORY_RETENTION_DAYS now = Some c -> dt_compare t c = Gt ->
  exists h, clean_old_entries now m = Some h /\ is_Some (h !! u) /\
    forall r title d, fetch_daily_news h r <> (title, Some u, d).
Proof.
  intros Hbn Hbt Hm Hc Hgt. unfold clean_old_entries. rewrite Hc.
  eexists. split; [reflexivity|].
  assert (Hu : filter (fun '(_, timestamp) => py_str_gt timestamp (isoformat c) = true) m
                 !! u = Some (isoformat t)).
  { apply map_lookup_filter_Some. split; [done|]. simpl.
    apply py_str_gt_isoformat; [done| |done].
    exact (sub_days_bounded _ now c Hbn Hc). }
  split; [by rewrite Hu|].
  intros r title d Hf. apply fetch_daily_news_fresh in Hf as [Hn _]. congruence.
Qed.

Lemma recent_entry_not_reselected_witness :
  sub_days HISTORY_RETENTION_DAYS (mkDatetime 2026 10 17 9 0 0 0)
    = Some (mkDatetime 2026 10 10 9 0 0 0) /\
  exists h, clean_old_entries (mkDatetime 2026 10 17 9 0 0 0)
              {[ "https://b.com" := "2026-10-12T08:30:00" ]} = Some h /\
    is_Some (h !! "https://b.com"%string) /\
    forall r title d, fetch_daily_news h r <> (title, Some "https://b.com"%string, d).
Proof.
  split; [reflexivity|].
  apply (recent_entry_not_reselected (mkDatetime 2026 10 17 9 0 0 0)
    (mkDatetime 2026 10 12 8 30 0 0) (mkDatetime 2026 10 10 9 0 0 0)).
  all: first [apply bounded_dec; vm_compute; reflexivity | vm_compute; reflexivity].
Defined.










(** Loading [Main.py] succeeds exactly when every required variable is set
    to a non-empty value; otherwise it raises an [EnvironmentError] whose
    list holds exactly the unset or empty variables. *)
Theorem load_module_env_check (getenv : string -> option string) :
  (load_module getenv = ModuleLoaded <->
   forall v, In v required_vars -> truthy (getenv v) = true) /\
  (forall v, In v (missing_vars getenv) <-> In v required_vars /\ truthy (getenv v) = false).
Proof.
  assert (Hm : forall v, In v (missing_vars getenv) <->
                 In v required_vars /\ truthy (getenv v) = false).
  { intros v. unfold missing_vars. rewrite filter_In.
    destruct (truthy (getenv v)); simpl; intuition congruence. }
  split; [|exact Hm]. unfold load_module. split.
  - intros Hl v Hv. destruct (truthy (getenv v)) eqn:Ht; [done|].
    assert (Hin : In v (missing_vars getenv)) by (apply Hm; done).
    destruct (missing_vars getenv); [done|discriminate].
  - intros Hall. destruct (missing_vars getenv) as [|x xs] eqn:E; [done|].
    exfalso. destruct (proj1 (Hm x) (or_introl eq_refl)) as [Hx Hf]. rewrite (Hall x Hx) in Hf. discriminate.
Qed.

Lemma main_posted_implies_commit_witness :
  In (EvPosted "1"%string) (snd (main success_world)) /\
  In (EvStage COMMIT_HISTORY) (snd (main success_world)).
Proof.
  assert (H : In (EvPosted "1"%string) (snd (main success_world)))
    by (vm_compute; repeat first [left; reflexivity | right]).
  split; [exact H|]. exact (main_posted_implies_commit success_world "1" H).
Defined.

Lemma main_store_frame_witness :
  fst (main (mkWorld (StoreJson (DocObject {[ "https://a.com" := "2026-10-16T10:00:00" ]}))
               (w_clock success_world) (w_clock_mark success_world)
               (w_news success_world) (w_prompt_reply success_world)
               (w_image_api success_world) Raised
               (w_image_download success_world) (w_media_upload success_world)
               (w_create_tweet success_world) SaveOk))
  = StoreJson (DocObject {[ "https://a.com" := "2026-10-16T10:00:00" ]}).
Proof.
  apply main_store_frame. vm_compute. intros H.
  repeat destruct H as [H|H]; try discriminate. exact H.
Defined.
